(** * Account REST service: the route layer of [service/routes.py]

    A shallow embedding of the Flask handlers of the account service and
    of the parts of [service.models], [service.common.status] and
    [service.common.error_handlers] they call, followed by the properties
    of the HTTP surface. *)

From Stdlib Require Import ZArith List String Ascii Bool Lia DecimalString.
Import ListNotations.

Set Warnings "-register-all".

Local Open Scope string_scope.
Local Open Scope Z_scope.

(** ** HTTP status codes *)

(** Modelled from the spec: the constants of [service/common/status.py],
    which the routes import as [status]; the spec names each by its
    number. *)
Module status.
Definition HTTP_200_OK : Z := 200.
Definition HTTP_201_CREATED : Z := 201.
Definition HTTP_204_NO_CONTENT : Z := 204.
Definition HTTP_400_BAD_REQUEST : Z := 400.
Definition HTTP_404_NOT_FOUND : Z := 404.
Definition HTTP_415_UNSUPPORTED_MEDIA_TYPE : Z := 415.
End status.

(** ** JSON values

    What [request.get_json()] hands to a handler and what [jsonify]
    receives.  A JSON object is kept as the list of its members, in order;
    numbers are the integers (the wire schema has no other). *)

Inductive json : Type :=
| JNull
| JBool (b : bool)
| JNum (z : Z)
| JStr (s : string)
| JArr (items : list json)
| JObj (members : list (string * json)).

(** [data.get(key)] on the members of an object. *)
Fixpoint dict_get (key : string) (members : list (string * json)) : option json :=
  match members with
  | [] => None
  | (k, v) :: rest => if String.eqb k key then Some v else dict_get key rest
  end.

(** ** Calendar dates and their ISO-8601 rendering *)

(** Modelled from the spec: the calendar date of [date_joined], which
    [service.models] renders as the ISO-8601 string [YYYY-MM-DD] and
    parses back.  The date class is Python's, with years 1 to 9999. *)
Record date : Type := mkDate { year : Z; month : Z; day : Z }.

(** Python's calendar: leap years and the length of a month. *)
Definition is_leap (y : Z) : bool :=
  (y mod 4 =? 0) && negb (y mod 100 =? 0) || (y mod 400 =? 0).

Definition days_in_month (y m : Z) : Z :=
  match m with
  | 1 | 3 | 5 | 7 | 8 | 10 | 12 => 31
  | 4 | 6 | 9 | 11 => 30
  | 2 => if is_leap y then 29 else 28
  | _ => 0
  end.

(** The days [date(year, month, day)] accepts. *)
Definition valid_date (d : date) : bool :=
  (1 <=? year d) && (year d <=? 9999) &&
  (1 <=? month d) && (month d <=? 12) &&
  (1 <=? day d) && (day d <=? days_in_month (year d) (month d)).

(** The character of a decimal digit, and back. *)
Definition digit (n : Z) : ascii := ascii_of_N (Z.to_N (48 + n)).

Definition digit_val (c : ascii) : option Z :=
  let n := Z.of_N (N_of_ascii c) in
  if (48 <=? n) && (n <=? 57) then Some (n - 48) else None.

(** Two and four decimal digits, zero-padded, in front of [rest]. *)
Definition pad2 (n : Z) (rest : string) : string :=
  String (digit (n / 10 mod 10)) (String (digit (n mod 10)) rest).

Definition pad4 (n : Z) (rest : string) : string :=
  String (digit (n / 1000 mod 10)) (String (digit (n / 100 mod 10)) (pad2 n rest)).

Definition hyphen : ascii := "-"%char.

(** Modelled from the spec: [date.isoformat()], the rendering of
    [date_joined] on the wire. *)
Definition isoformat (d : date) : string :=
  pad4 (year d) (String hyphen (pad2 (month d) (String hyphen (pad2 (day d) "")))).

Definition digits2 (a b : ascii) : option Z :=
  match digit_val a, digit_val b with
  | Some x, Some y => Some (10 * x + y)
  | _, _ => None
  end.

Definition digits4 (a b c d : ascii) : option Z :=
  match digits2 a b, digits2 c d with
  | Some x, Some y => Some (100 * x + y)
  | _, _ => None
  end.

(** Modelled from the spec: [date.fromisoformat(text)], the parsing of
    [date_joined]: ten characters [YYYY-MM-DD] that name a real day;
    [None] stands for the [ValueError] it raises otherwise. *)
Definition fromisoformat (text : string) : option date :=
  match text with
  | String y1 (String y2 (String y3 (String y4 (String h1
      (String m1 (String m2 (String h2 (String d1 (String d2 EmptyString))))))))) =>
      if Ascii.eqb h1 hyphen && Ascii.eqb h2 hyphen then
        match digits4 y1 y2 y3 y4, digits2 m1 m2, digits2 d1 d2 with
        | Some y, Some m, Some d =>
            let r := mkDate y m d in
            if valid_date r then Some r else None
        | _, _, _ => None
        end
      else None
  | _ => None
  end.

(** ** The Account entity

    [service/models.py], the Account Entity and Store Adapter of the spec
    (sections 3 and 4.1): the record, [serialize], [deserialize] and the
    five store operations. *)

(** Modelled from the spec: the [Account] class of [service/models.py],
    with the attributes of section 3. *)
Record Account : Type := mkAccount {
  id : option Z;            (* None until the store assigns one *)
  name : string;
  email : string;
  address : string;
  phone_number : string;
  date_joined : date
}.

(** Modelled from the spec: [Account()], a new entity of
    [service/models.py], not yet persisted.  Its columns are unset until
    [deserialize] fills them; the date default is applied there. *)
Definition Account_new (today : date) : Account :=
  mkAccount None "" "" "" "" today.

Definition json_of_id (i : option Z) : json :=
  match i with
  | Some z => JNum z
  | None => JNull
  end.

(** Modelled from the spec: [account.serialize()] of [service/models.py],
    the field-for-field wire record. *)
Definition serialize (a : Account) : json :=
  JObj [ ("id", json_of_id (id a));
         ("name", JStr (name a));
         ("email", JStr (email a));
         ("address", JStr (address a));
         ("phone_number", JStr (phone_number a));
         ("date_joined", JStr (isoformat (date_joined a))) ].

(** Modelled from the spec: how [deserialize] of [service/models.py] reads
    a required text field of the wire record. *)
Definition text_field (key : string) (members : list (string * json))
  : string + string :=
  match dict_get key members with
  | Some (JStr s) => inl s
  | Some _ => inr ("Invalid Account: " ++ key ++ " is not text")
  | None => inr ("Invalid Account: missing " ++ key)
  end.

(** Modelled from the spec: how [deserialize] of [service/models.py] reads
    the date of the wire record, the creation date when omitted. *)
Definition date_field (today : date) (members : list (string * json))
  : date + string :=
  match dict_get "date_joined" members with
  | None => inl today
  | Some (JStr s) =>
      match fromisoformat s with
      | Some d => inl d
      | None => inr ("Invalid Account: bad date_joined " ++ s)
      end
  | Some _ => inr "Invalid Account: date_joined is not text"
  end.

(** Modelled from the spec: [account.deserialize(data)] of
    [service/models.py]: the account with its five data fields replaced
    (the [id] is never taken from the wire record), or the message of the
    ValidationError. *)
Definition deserialize (today : date) (self : Account) (data : json)
  : Account + string :=
  match data with
  | JObj members =>
      match text_field "name" members with
      | inr e => inr e
      | inl n =>
      match text_field "email" members with
      | inr e => inr e
      | inl m =>
      match text_field "address" members with
      | inr e => inr e
      | inl ad =>
      match text_field "phone_number" members with
      | inr e => inr e
      | inl p =>
      match date_field today members with
      | inr e => inr e
      | inl d => inl (mkAccount (id self) n m ad p d)
      end end end end end
  | _ => inr "Invalid Account: body of request contained bad or no data"
  end.

(** ** The store and the world a request runs in *)

(** Modelled from the spec: the relational table behind
    [service/models.py], one row per Account, primary key [id] assigned by
    the store. *)
Record database : Type := mkDatabase {
  rows : list Account;      (* the table, in insertion order *)
  next_id : Z               (* the primary-key sequence *)
}.

(** Modelled from the spec: the store operations [service/models.py]
    offers, as the statements a request sends. *)
Inductive db_call : Type :=
| Insert (a : Account)
| SelectById (i : Z)
| SelectAll
| Update (a : Account)
| Delete (a : Account).

(** The store, the clock [date.today()] reads, and the statements sent. *)
Record world : Type := mkWorld {
  store : database;
  today : date;
  calls : list db_call      (* every store operation attempted so far *)
}.

(** ** The monad of a request: state and the two exceptions

    A handler either returns, or leaves through [abort(code, description)]
    (werkzeug's HTTPException) or through the DataValidationError that
    [deserialize] raises. *)

Inductive outcome (A : Type) : Type :=
| Returned (a : A)
| HTTPException (code : Z) (description : string)
| DataValidationError (message : string).
Arguments Returned {A} a.
Arguments HTTPException {A} code description.
Arguments DataValidationError {A} message.

Definition flask (A : Type) : Type := world -> outcome A * world.

Definition ret {A} (a : A) : flask A := fun w => (Returned a, w).

Definition bind {A B} (m : flask A) (k : A -> flask B) : flask B :=
  fun w =>
    match m w with
    | (Returned a, w') => k a w'
    | (HTTPException c d, w') => (HTTPException c d, w')
    | (DataValidationError e, w') => (DataValidationError e, w')
    end.

Definition abort {A} (code : Z) (description : string) : flask A :=
  fun w => (HTTPException code description, w).

Definition raise_validation {A} (message : string) : flask A :=
  fun w => (DataValidationError message, w).

Declare Scope flask_scope.
Delimit Scope flask_scope with flask.
Notation "x <- m ;; k" := (bind m (fun x => k))
  (at level 61, m at next level, right associativity) : flask_scope.
Notation "m ;;; k" := (bind m (fun _ => k))
  (at level 61, right associativity) : flask_scope.
Local Open Scope flask_scope.

Definition get_today : flask date := fun w => (Returned (today w), w).

(** One statement against the store: it is recorded, then the table is
    read and possibly replaced. *)
Definition query {A} (c : db_call) (f : database -> A * database) : flask A :=
  fun w =>
    let (a, db) := f (store w) in
    (Returned a, mkWorld db (today w) (calls w ++ [c])).

Definition has_id (i : option Z) (r : Account) : bool :=
  match id r, i with
  | Some x, Some y => x =? y
  | _, _ => false
  end.

(** Modelled from the spec: [Account.find(account_id)] of
    [service/models.py], the row with that primary key, or absent. *)
Definition Account_find (account_id : Z) : flask (option Account) :=
  query (SelectById account_id)
        (fun db => (List.find (has_id (Some account_id)) (rows db), db)).

(** Modelled from the spec: [Account.all()] of [service/models.py], every
    row of the table, materialised. *)
Definition Account_all : flask (list Account) :=
  query SelectAll (fun db => (rows db, db)).

(** Modelled from the spec: the row the store persists for a new account,
    the account's data under the next primary key. *)
Definition created_row (db : database) (a : Account) : Account :=
  mkAccount (Some (next_id db)) (name a) (email a) (address a)
            (phone_number a) (date_joined a).

(** Modelled from the spec: [account.create()] of [service/models.py]
    inserts one row; the store assigns the [id]. *)
Definition Account_create (a : Account) : flask Account :=
  query (Insert a)
        (fun db =>
           let a' := created_row db a in
           (a', mkDatabase (rows db ++ [a']) (next_id db + 1))).

(** Modelled from the spec: [account.update()] of [service/models.py]
    persists the fields of an already-located record. *)
Definition Account_update (a : Account) : flask unit :=
  query (Update a)
        (fun db =>
           (tt, mkDatabase (map (fun r => if has_id (id a) r then a else r) (rows db))
                           (next_id db))).

(** Modelled from the spec: [account.delete()] of [service/models.py]
    removes the row with the account's [id]. *)
Definition Account_delete (a : Account) : flask unit :=
  query (Delete a)
        (fun db =>
           (tt, mkDatabase (filter (fun r => negb (has_id (id a) r)) (rows db))
                           (next_id db))).

(** [Account()] inside a request: the clock is only read. *)
Definition Account_init : flask Account :=
  d <- get_today ;; ret (Account_new d).

(** [account.deserialize(data)] inside a request: a failure is raised as
    the DataValidationError.  Only the entity in memory is changed; the
    table is written by [create] and [update] alone. *)
Definition Account_deserialize (self : Account) (data : json) : flask Account :=
  d <- get_today ;;
  match deserialize d self data with
  | inl a => ret a
  | inr e => raise_validation e
  end.

(** ** Requests and responses

    What the handlers read of [flask.request] and what they hand back.
    [request.get_json()] belongs to the framework: whether it decodes the
    body or leaves with an HTTP error of its own (a body that is not JSON,
    a mimetype other than application/json) is decided outside
    [routes.py], so its outcome is part of the request.  The mimetype the
    framework looks at is the Content-Type without its parameters, so a
    header [application/json; charset=utf-8] has its body decoded. *)

Inductive json_load : Type :=
| Loaded (data : json)
| NotLoaded (code : Z) (description : string).

Record request : Type := mkRequest {
  headers : list (string * string);
  json_payload : json_load
}.

(** [request.headers.get(key)] *)
Fixpoint headers_get (key : string) (hs : list (string * string)) : option string :=
  match hs with
  | [] => None
  | (k, v) :: rest => if String.eqb k key then Some v else headers_get key rest
  end.

(** [request.get_json()] *)
Definition get_json (req : request) : flask json :=
  match json_payload req with
  | Loaded data => ret data
  | NotLoaded code description => abort code description
  end.

Inductive body : Type :=
| Json (j : json)                 (* jsonify(...) or a returned dict *)
| Text (s : string)               (* a returned string *)
| ErrorMessage (message : string) (* the body an error handler builds *).

Record response : Type := mkResponse {
  status_code : Z;
  payload : body;
  response_headers : list (string * string)
}.

(** [f"{account_id}"] *)
Definition str_of_int (z : Z) : string := NilZero.string_of_int (Z.to_int z).

(** ** The routes of [service/routes.py]

    Logging calls are left out: they touch neither the store nor the
    response. *)

(** [health]: the route [/health]. *)
Definition health : flask response :=
  ret (mkResponse status.HTTP_200_OK (Json (JObj [("status", JStr "OK")])) []).

(** [index]: the route [/]. *)
Definition index : flask response :=
  ret (mkResponse status.HTTP_200_OK
         (Json (JObj [("name", JStr "Account REST API Service");
                      ("version", JStr "1.0")]))
         []).

(** The test [content_type and content_type == media_type]. *)
Definition content_type_matches (content_type : option string) (media_type : string)
  : bool :=
  match content_type with
  | Some ct => negb (String.eqb ct "") && String.eqb ct media_type
  | None => false
  end.

(** [check_content_type(media_type)] *)
Definition check_content_type (req : request) (media_type : string) : flask unit :=
  let content_type := headers_get "Content-Type" (headers req) in
  if content_type_matches content_type media_type then ret tt
  else abort status.HTTP_415_UNSUPPORTED_MEDIA_TYPE
             ("Content-Type must be " ++ media_type).

(** [create_accounts]: POST [/accounts]. *)
Definition create_accounts (req : request) : flask response :=
  check_content_type req "application/json" ;;;
  account <- Account_init ;;
  data <- get_json req ;;
  account <- Account_deserialize account data ;;
  account <- Account_create account ;;
  let message := serialize account in
  let location_url := "/" in
  ret (mkResponse status.HTTP_201_CREATED (Json message)
                  [("Location", location_url)]).

(** [list_accounts]: GET [/accounts]. *)
Definition list_accounts : flask response :=
  accounts <- Account_all ;;
  let account_data := map serialize accounts in
  ret (mkResponse status.HTTP_200_OK (Json (JArr account_data)) []).

Definition not_found_message (account_id : Z) : string :=
  "Account with id " ++ str_of_int account_id ++ " could not be found.".

(** [get_accounts]: GET [/accounts/<int:account_id>]. *)
Definition get_accounts (account_id : Z) : flask response :=
  account <- Account_find account_id ;;
  match account with
  | None => abort status.HTTP_404_NOT_FOUND (not_found_message account_id)
  | Some account =>
      ret (mkResponse status.HTTP_200_OK (Json (serialize account)) [])
  end.

(** [update_account]: PUT [/accounts/<int:account_id>]. *)
Definition update_account (account_id : Z) (req : request) : flask response :=
  data <- get_json req ;;
  account <- Account_find account_id ;;
  match account with
  | None => abort status.HTTP_404_NOT_FOUND (not_found_message account_id)
  | Some account =>
      account <- Account_deserialize account data ;;
      Account_update account ;;;
      ret (mkResponse status.HTTP_200_OK (Json (serialize account)) [])
  end.

(** [delete_account]: DELETE [/accounts/<int:account_id>]. *)
Definition delete_account (account_id : Z) : flask response :=
  account <- Account_find account_id ;;
  match account with
  | Some account => Account_delete account
  | None => ret tt
  end ;;;
  ret (mkResponse status.HTTP_204_NO_CONTENT (Text "") []).

(** ** The application around the routes *)

(** Modelled from the spec: the body and status an error handler of
    [service/common/error_handlers.py] answers with. *)
Definition error_response (code : Z) (message : string) : response :=
  mkResponse code (ErrorMessage message) [].

(** Modelled from the spec: [service/common/error_handlers.py] turns an
    exception that leaves a handler into the response: an aborted request
    keeps its code and description, a ValidationError becomes HTTP 400 with
    its message. *)
Definition respond (h : flask response) (w : world) : response * world :=
  match h w with
  | (Returned r, w') => (r, w')
  | (HTTPException code description, w') => (error_response code description, w')
  | (DataValidationError message, w') =>
      (error_response status.HTTP_400_BAD_REQUEST message, w')
  end.

(** The route table: method and path of a request. *)
Inductive route : Type :=
| GET_health
| GET_index
| POST_accounts
| GET_accounts
| GET_account (account_id : Z)
| PUT_account (account_id : Z)
| DELETE_account (account_id : Z).

Definition handler (r : route) (req : request) : flask response :=
  match r with
  | GET_health => health
  | GET_index => index
  | POST_accounts => create_accounts req
  | GET_accounts => list_accounts
  | GET_account i => get_accounts i
  | PUT_account i => update_account i req
  | DELETE_account i => delete_account i
  end.

Definition serve (r : route) (req : request) (w : world) : response * world :=
  respond (handler r req) w.

(** Is the status one of the three domain errors? *)
Definition domain_error (code : Z) : bool :=
  (code =? status.HTTP_400_BAD_REQUEST) || (code =? status.HTTP_404_NOT_FOUND)
  || (code =? status.HTTP_415_UNSUPPORTED_MEDIA_TYPE).

(** The text fields every wire record must carry. *)
Definition required_text_fields : list string :=
  ["name"; "email"; "address"; "phone_number"].

(** Does the wire record lack one of the required text fields? *)
Definition missing_required_field (data : json) : bool :=
  match data with
  | JObj members =>
      existsb (fun key => match dict_get key members with
                          | None => true
                          | Some _ => false
                          end)
              required_text_fields
  | _ => false
  end.

(** ** Sample data: the payloads of [tests/test_routes.py] and one stored
    account *)

Definition json_headers : list (string * string) :=
  [("Content-Type", "application/json")].

Definition updated_data : json :=
  JObj [ ("name", JStr "New Name");
         ("address", JStr "New Address");
         ("email", JStr "new@email.com");
         ("date_joined", JStr "2024-01-01");
         ("phone_number", JStr "0123456778") ].

Definition not_enough_data : json := JObj [("name", JStr "not enough data")].

Definition sample_account : Account :=
  mkAccount (Some 1) "Ada" "ada@example.com" "1 Main St" "555-0100"
            (mkDate 2023 5 17).

Definition one_account_world : world :=
  mkWorld (mkDatabase [sample_account] 2) (mkDate 2024 2 29) [].

Definition charset_request : request :=
  mkRequest [("Content-Type", "application/json; charset=utf-8")]
            (Loaded updated_data).

Definition bad_json_request : request :=
  mkRequest json_headers (Loaded not_enough_data).

Definition updated_account : Account :=
  mkAccount (Some 1) "New Name" "new@email.com" "New Address" "0123456778"
            (mkDate 2024 1 1).

Definition json_update_request : request :=
  mkRequest json_headers (Loaded updated_data).

Definition new_account : Account :=
  mkAccount None "New Name" "new@email.com" "New Address" "0123456778"
            (mkDate 2024 1 1).

(** ** Invariants of the table *)

(** The primary key of a row is assigned, positive and below [n]. *)
Definition id_below (n : Z) (r : Account) : bool :=
  match id r with
  | Some x => (1 <=? x) && (x <? n)
  | None => false
  end.

(** No two rows share a primary key. *)
Fixpoint distinct_ids (table : list Account) : bool :=
  match table with
  | [] => true
  | r :: rest => negb (existsb (has_id (id r)) rest) && distinct_ids rest
  end.

(** The table of a store the service has filled: every key was handed out
    by the sequence, and once only. *)
Definition store_ok (db : database) : bool :=
  (1 <=? next_id db) && forallb (id_below (next_id db)) (rows db)
  && distinct_ids (rows db).

(** Every stored [date_joined] is a day of the calendar. *)
Definition dates_ok (db : database) : bool :=
  forallb (fun r => valid_date (date_joined r)) (rows db).

(** ** The bulk helper of [tests/test_routes.py] *)

(** [account.id = ...] *)
Definition set_id (i : option Z) (a : Account) : Account :=
  mkAccount i (name a) (email a) (address a) (phone_number a) (date_joined a).

(** [new_account["id"]] read back as a primary key; [None] when the
    response carries no JSON object with an integer or null [id]. *)
Definition response_id (r : response) : option (option Z) :=
  match payload r with
  | Json (JObj members) =>
      match dict_get "id" members with
      | Some (JNum i) => Some (Some i)
      | Some JNull => Some None
      | _ => None
      end
  | _ => None
  end.

(** [self.client.post(BASE_URL, json=account.serialize())]: the test client
    sends the JSON content type with a [json=] body. *)
Definition post_account (account : Account) : request :=
  mkRequest json_headers (Loaded (serialize account)).

(** [_create_accounts(count)], over the accounts the factory yields: each
    is posted, the response must be 201 (a failed assertion is [None]), and
    the account takes the [id] of the response. *)
Fixpoint _create_accounts (factory : list Account) (w : world)
  : option (list Account) * world :=
  match factory with
  | [] => (Some [], w)
  | account :: rest =>
      let (response, w1) := serve POST_accounts (post_account account) w in
      if status_code response =? status.HTTP_201_CREATED then
        match response_id response with
        | Some i =>
            let (accounts, w2) := _create_accounts rest w1 in
            (option_map (cons (set_id i account)) accounts, w2)
        | None => (None, w1)
        end
      else (None, w1)
  end.

(** The accounts of the factory under consecutive primary keys from [n]. *)
Fixpoint numbered (n : Z) (accounts : list Account) : list Account :=
  match accounts with
  | [] => []
  | a :: rest => set_id (Some n) a :: numbered (n + 1) rest
  end.

(** A request whose body [request.get_json()] cannot decode: the framework
    leaves with 400 Bad Request. *)
Definition undecodable_request : request :=
  mkRequest json_headers (NotLoaded 400 "Bad Request").

(** ** Requests served one after another *)

(** The application serving a list of requests in order, each on the world
    the one before left. *)
Fixpoint serve_all (requests : list (route * request)) (w : world)
  : list response * world :=
  match requests with
  | [] => ([], w)
  | (r, req) :: rest =>
      let (first, w1) := serve r req w in
      let (others, w2) := serve_all rest w1 in
      (first :: others, w2)
  end.

(** Unfolds a route down to the monad's operations. *)
Ltac run_flask :=
  unfold serve, respond, handler, health, index, create_accounts, list_accounts,
    get_accounts, update_account, delete_account, check_content_type,
    Account_init, Account_deserialize, Account_find, Account_all,
    Account_create, Account_update, Account_delete, get_json, get_today,
    query, bind, ret, abort, raise_validation;
  cbn [fst snd store today calls rows next_id].

(** * Properties *)

(** ** Dates: parsing undoes rendering *)

Lemma digit_val_digit (k : Z) : 0 <= k < 10 -> digit_val (digit k) = Some k.
Proof.
  intros Hk.
  assert (Hcases : k = 0 \/ k = 1 \/ k = 2 \/ k = 3 \/ k = 4 \/
                   k = 5 \/ k = 6 \/ k = 7 \/ k = 8 \/ k = 9) by lia.
  repeat (destruct Hcases as [-> | Hcases]; [reflexivity | ]).
  subst k; reflexivity.
Qed.

Lemma digits2_digit (a b : Z) :
  0 <= a < 10 -> 0 <= b < 10 -> digits2 (digit a) (digit b) = Some (10 * a + b).
Proof.
  intros Ha Hb. unfold digits2.
  now rewrite (digit_val_digit a Ha), (digit_val_digit b Hb).
Qed.

Lemma digits2_pad (n : Z) :
  0 <= n < 100 -> digits2 (digit (n / 10 mod 10)) (digit (n mod 10)) = Some n.
Proof.
  intros Hn.
  rewrite digits2_digit by (apply Z.mod_pos_bound; lia).
  f_equal. Z.div_mod_to_equations. lia.
Qed.

Lemma digits4_pad (n : Z) :
  0 <= n < 10000 ->
  digits4 (digit (n / 1000 mod 10)) (digit (n / 100 mod 10))
          (digit (n / 10 mod 10)) (digit (n mod 10)) = Some n.
Proof.
  intros Hn. unfold digits4.
  rewrite !digits2_digit by (apply Z.mod_pos_bound; lia).
  f_equal. Z.div_mod_to_equations. lia.
Qed.

Lemma valid_date_bounds (d : date) :
  valid_date d = true ->
  1 <= year d <= 9999 /\ 1 <= month d <= 12 /\ 1 <= day d <= 31.
Proof.
  unfold valid_date. rewrite !andb_true_iff, !Z.leb_le.
  intros [[[[[Hy1 Hy2] Hm1] Hm2] Hd1] Hd2].
  repeat split; try assumption.
  assert (Hm : month d = 1 \/ month d = 2 \/ month d = 3 \/ month d = 4 \/
               month d = 5 \/ month d = 6 \/ month d = 7 \/ month d = 8 \/
               month d = 9 \/ month d = 10 \/ month d = 11 \/ month d = 12) by lia.
  revert Hd2. unfold days_in_month.
  repeat (destruct Hm as [-> | Hm]; [destruct (is_leap (year d)); lia | ]).
  rewrite Hm. lia.
Qed.

Lemma fromisoformat_isoformat (d : date) :
  valid_date d = true -> fromisoformat (isoformat d) = Some d.
Proof.
  intros Hv. destruct (valid_date_bounds d Hv) as (Hy & Hm & Hd).
  destruct d as [y m dd]; cbn [year month day] in *.
  unfold isoformat, pad4, pad2, fromisoformat; cbn [year month day].
  rewrite Ascii.eqb_refl; cbn [andb].
  rewrite digits4_pad by lia.
  rewrite !digits2_pad by lia.
  now rewrite Hv.
Qed.

(** ** Looking rows up by primary key *)

Lemma has_id_true (i : Z) (r : Account) :
  has_id (Some i) r = true <-> id r = Some i.
Proof.
  unfold has_id. destruct (id r) as [x | ].
  - rewrite Z.eqb_eq. split; congruence.
  - split; discriminate.
Qed.

Lemma find_by_id_some (i : Z) (table : list Account) (a : Account) :
  find (has_id (Some i)) table = Some a -> In a table /\ id a = Some i.
Proof.
  intros H. apply find_some in H. now rewrite has_id_true in H.
Qed.

Lemma find_by_id_none (i : Z) (table : list Account) :
  find (has_id (Some i)) table = None <->
  (forall a, In a table -> id a <> Some i).
Proof.
  split.
  - intros H a Ha Hid.
    apply (find_none _ _ H) in Ha. apply has_id_true in Hid. congruence.
  - intros H. induction table as [ | r table IH]; [reflexivity | ].
    cbn. destruct (has_id (Some i) r) eqn:E.
    + apply has_id_true in E. exfalso. apply (H r); [now left | exact E].
    + apply IH. intros a Ha. apply H. now right.
Qed.

Lemma find_after_delete (i : Z) (table : list Account) :
  find (has_id (Some i)) (filter (fun r => negb (has_id (Some i) r)) table) = None.
Proof.
  induction table as [ | r table IH]; [reflexivity | ].
  cbn. destruct (has_id (Some i) r) eqn:E; cbn; [exact IH | ].
  now rewrite E.
Qed.

(** ** What each route does, as equations on the world *)

Lemma serve_get_account (i : Z) (req : request) (w : world) :
  serve (GET_account i) req w =
  (match find (has_id (Some i)) (rows (store w)) with
   | Some a => mkResponse status.HTTP_200_OK (Json (serialize a)) []
   | None => error_response status.HTTP_404_NOT_FOUND (not_found_message i)
   end,
   mkWorld (store w) (today w) (calls w ++ [SelectById i])).
Proof.
  run_flask. destruct w as [[table next] clock log]; cbn.
  now destruct (find (has_id (Some i)) table).
Qed.

Lemma serve_delete_account (i : Z) (req : request) (w : world) :
  serve (DELETE_account i) req w =
  (mkResponse status.HTTP_204_NO_CONTENT (Text "") [],
   match find (has_id (Some i)) (rows (store w)) with
   | Some a =>
       mkWorld (mkDatabase (filter (fun r => negb (has_id (Some i) r)) (rows (store w)))
                           (next_id (store w)))
               (today w) ((calls w ++ [SelectById i]) ++ [Delete a])
   | None => mkWorld (store w) (today w) (calls w ++ [SelectById i])
   end).
Proof.
  run_flask. destruct w as [[table next] clock log]; cbn.
  destruct (find (has_id (Some i)) table) as [a | ] eqn:E; [ | reflexivity].
  cbn. apply find_by_id_some in E. destruct E as [_ ->]. reflexivity.
Qed.

Lemma serve_list_accounts (req : request) (w : world) :
  serve GET_accounts req w =
  (mkResponse status.HTTP_200_OK (Json (JArr (map serialize (rows (store w))))) [],
   mkWorld (store w) (today w) (calls w ++ [SelectAll])).
Proof. run_flask. now destruct w as [[table next] clock log]. Qed.

Lemma serve_health (req : request) (w : world) :
  serve GET_health req w =
  (mkResponse status.HTTP_200_OK (Json (JObj [("status", JStr "OK")])) [], w).
Proof. reflexivity. Qed.

Lemma serve_create_accounts (req : request) (w : world) :
  serve POST_accounts req w =
  if content_type_matches (headers_get "Content-Type" (headers req))
                          "application/json"
  then
    match json_payload req with
    | NotLoaded code description => (error_response code description, w)
    | Loaded data =>
        match deserialize (today w) (Account_new (today w)) data with
        | inr e => (error_response status.HTTP_400_BAD_REQUEST e, w)
        | inl a =>
            let created := created_row (store w) a in
            (mkResponse status.HTTP_201_CREATED (Json (serialize created))
                        [("Location", "/")],
             mkWorld (mkDatabase (rows (store w) ++ [created])
                                 (next_id (store w) + 1))
                     (today w) (calls w ++ [Insert a]))
        end
    end
  else (error_response status.HTTP_415_UNSUPPORTED_MEDIA_TYPE
                       "Content-Type must be application/json", w).
Proof.
  run_flask.
  destruct (content_type_matches _ _); [ | reflexivity].
  destruct (json_payload req) as [data | code description]; [ | reflexivity].
  cbn. destruct (deserialize _ _ data) as [a | e]; reflexivity.
Qed.

Lemma serve_update_account (i : Z) (req : request) (w : world) :
  serve (PUT_account i) req w =
  match json_payload req with
  | NotLoaded code description => (error_response code description, w)
  | Loaded data =>
      let looked_up := mkWorld (store w) (today w) (calls w ++ [SelectById i]) in
      match find (has_id (Some i)) (rows (store w)) with
      | None =>
          (error_response status.HTTP_404_NOT_FOUND (not_found_message i), looked_up)
      | Some a =>
          match deserialize (today w) a data with
          | inr e => (error_response status.HTTP_400_BAD_REQUEST e, looked_up)
          | inl a' =>
              (mkResponse status.HTTP_200_OK (Json (serialize a')) [],
               mkWorld (mkDatabase
                          (map (fun r => if has_id (id a') r then a' else r)
                               (rows (store w)))
                          (next_id (store w)))
                       (today w) ((calls w ++ [SelectById i]) ++ [Update a']))
          end
      end
  end.
Proof.
  run_flask.
  destruct (json_payload req) as [data | code description]; [ | reflexivity].
  destruct w as [[table next] clock log]; cbn.
  destruct (find (has_id (Some i)) table) as [a | ]; [ | reflexivity].
  cbn. destruct (deserialize clock a data) as [a' | e]; reflexivity.
Qed.

Lemma content_type_json (req : request) :
  headers_get "Content-Type" (headers req) = Some "application/json" ->
  content_type_matches (headers_get "Content-Type" (headers req))
                       "application/json" = true.
Proof. intros ->. reflexivity. Qed.

(** A content type that is absent, or is any text other than the media
    type, fails the test of [check_content_type]. *)
Lemma content_type_mismatch (content_type : option string) (media_type : string) :
  content_type <> Some media_type ->
  content_type_matches content_type media_type = false.
Proof.
  intros H. destruct content_type as [ct | ]; [ | reflexivity].
  cbn. destruct (String.eqb ct media_type) eqn:E.
  - apply String.eqb_eq in E. congruence.
  - apply andb_false_r.
Qed.

(** ** Deserialization fails on a missing text field *)

Lemma deserialize_missing_field (clock : date) (self : Account) (data : json) :
  missing_required_field data = true ->
  exists e, deserialize clock self data = inr e.
Proof.
  destruct data as [ | b | z | s | items | members]; try discriminate.
  unfold missing_required_field, required_text_fields, deserialize, text_field.
  cbn [existsb]. rewrite !orb_true_iff.
  destruct (dict_get "name" members) as [[ | | | | | ] | ]; try (eexists; reflexivity);
  destruct (dict_get "email" members) as [[ | | | | | ] | ]; try (eexists; reflexivity);
  destruct (dict_get "address" members) as [[ | | | | | ] | ]; try (eexists; reflexivity);
  destruct (dict_get "phone_number" members) as [[ | | | | | ] | ];
    try (eexists; reflexivity).
  intros [H | [H | [H | [H | H]]]]; discriminate.
Qed.

(** ** The media-type check *)

(** X2: POST [/accounts] without the exact content type: 415, the message
    states the required type, and the world (the store and the list of
    store operations attempted) is as before. *)
Lemma create_accounts_unsupported_media_type (req : request) (w : world) :
  headers_get "Content-Type" (headers req) <> Some "application/json" ->
  serve POST_accounts req w =
  (error_response status.HTTP_415_UNSUPPORTED_MEDIA_TYPE
                  "Content-Type must be application/json", w).
Proof.
  intros H. rewrite serve_create_accounts.
  now rewrite (content_type_mismatch _ _ H).
Qed.

(** C1: every write request (POST /accounts or PUT /accounts/{id}) whose
    Content-Type is absent or not exactly "application/json" is answered
    with 415 and a message stating the required type, and no store
    operation is attempted.  [update_account] never calls
    [check_content_type]: for the request below, whose Content-Type is
    "application/json; charset=utf-8", POST answers 415 and leaves the
    world alone, while PUT on the existing account 1 answers 200, after a
    lookup and an update that replaces the stored row. *)
Theorem update_account_skips_content_type_check :
  headers_get "Content-Type" (headers charset_request) <> Some "application/json" /\
  serve POST_accounts charset_request one_account_world =
    (error_response 415 "Content-Type must be application/json", one_account_world) /\
  status_code (fst (serve (PUT_account 1) charset_request one_account_world)) = 200 /\
  calls (snd (serve (PUT_account 1) charset_request one_account_world)) =
    [SelectById 1; Update updated_account] /\
  rows (store (snd (serve (PUT_account 1) charset_request one_account_world))) =
    [updated_account] /\
  updated_account <> sample_account.
Proof.
  repeat split; try reflexivity; discriminate.
Qed.

(** ** No partial writes *)

(** C2: a request that fails with a domain error (400, 404 or 415) leaves
    the store as it was, on every route; in particular a PUT to an id that
    is not in the store returns 404 and creates no record, and a PUT (to an
    existing id) or a POST (with the JSON content type) whose body fails
    deserialization returns 400 and persists nothing. *)
Theorem domain_errors_leave_store_unchanged :
  (forall (r : route) (req : request) (w : world),
      domain_error (status_code (fst (serve r req w))) = true ->
      store (snd (serve r req w)) = store w) /\
  (forall (i : Z) (req : request) (data : json) (w : world),
      json_payload req = Loaded data ->
      (forall a, In a (rows (store w)) -> id a <> Some i) ->
      status_code (fst (serve (PUT_account i) req w)) = 404 /\
      store (snd (serve (PUT_account i) req w)) = store w) /\
  (forall (i : Z) (req : request) (data : json) (w : world) (a : Account) (e : string),
      json_payload req = Loaded data ->
      find (has_id (Some i)) (rows (store w)) = Some a ->
      deserialize (today w) a data = inr e ->
      status_code (fst (serve (PUT_account i) req w)) = 400 /\
      store (snd (serve (PUT_account i) req w)) = store w) /\
  (forall (req : request) (data : json) (w : world) (e : string),
      headers_get "Content-Type" (headers req) = Some "application/json" ->
      json_payload req = Loaded data ->
      deserialize (today w) (Account_new (today w)) data = inr e ->
      status_code (fst (serve POST_accounts req w)) = 400 /\
      store (snd (serve POST_accounts req w)) = store w).
Proof.
  split; [ | split; [ | split]].
  - intros r req w. destruct r as [ | | | | i | i | i].
    + reflexivity.
    + reflexivity.
    + rewrite serve_create_accounts.
      destruct (content_type_matches _ _); [ | reflexivity].
      destruct (json_payload req) as [data | code description]; [ | reflexivity].
      destruct (deserialize _ _ data) as [a | e]; [discriminate | reflexivity].
    + now rewrite serve_list_accounts.
    + now rewrite serve_get_account.
    + rewrite serve_update_account.
      destruct (json_payload req) as [data | code description]; [ | reflexivity].
      cbn zeta. destruct (find _ _) as [a | ]; [ | reflexivity].
      destruct (deserialize _ a data) as [a' | e]; [discriminate | reflexivity].
    + rewrite serve_delete_account. discriminate.
  - intros i req data w Hload Habsent.
    apply find_by_id_none in Habsent.
    rewrite serve_update_account, Hload. cbn zeta. rewrite Habsent. now split.
  - intros i req data w a e Hload Hfound Hbad.
    rewrite serve_update_account, Hload. cbn zeta. rewrite Hfound, Hbad. now split.
  - intros req data w e Hct Hload Hbad.
    rewrite serve_create_accounts, (content_type_json req Hct), Hload, Hbad.
    now split.
Qed.

Lemma domain_errors_leave_store_unchanged_witness :
  (domain_error
     (status_code (fst (serve (GET_account 0) bad_json_request one_account_world)))
   = true /\
   store (snd (serve (GET_account 0) bad_json_request one_account_world))
   = store one_account_world) /\
  (status_code (fst (serve (PUT_account 0) bad_json_request one_account_world)) = 404 /\
   store (snd (serve (PUT_account 0) bad_json_request one_account_world))
   = store one_account_world) /\
  (status_code (fst (serve (PUT_account 1) bad_json_request one_account_world)) = 400 /\
   store (snd (serve (PUT_account 1) bad_json_request one_account_world))
   = store one_account_world) /\
  (status_code (fst (serve POST_accounts bad_json_request one_account_world)) = 400 /\
   store (snd (serve POST_accounts bad_json_request one_account_world))
   = store one_account_world).
Proof.
  destruct domain_errors_leave_store_unchanged as (Hany & Hput404 & Hput400 & Hpost).
  split; [ | split; [ | split]].
  - split; [reflexivity | ].
    apply (Hany (GET_account 0) bad_json_request one_account_world). reflexivity.
  - apply (Hput404 0 bad_json_request not_enough_data one_account_world).
    + reflexivity.
    + intros a [<- | []]. discriminate.
  - apply (Hput400 1 bad_json_request not_enough_data one_account_world
                   sample_account "Invalid Account: missing email"); reflexivity.
  - apply (Hpost bad_json_request not_enough_data one_account_world
                 "Invalid Account: missing email"); reflexivity.
Defined.

(** ** Reading one account *)

(** C3: for every integer id, GET /accounts/{id} returns 200 with the
    serialized Account when an Account with that id is in the store, and
    404 with a message naming the id when none is; there is no third
    outcome. *)
Theorem get_accounts_found_or_404 (i : Z) (req : request) (w : world) :
  (exists a,
      In a (rows (store w)) /\ id a = Some i /\
      fst (serve (GET_account i) req w) =
        mkResponse 200 (Json (serialize a)) [])
  \/
  ((forall a, In a (rows (store w)) -> id a <> Some i) /\
   fst (serve (GET_account i) req w) =
     error_response 404
       ("Account with id " ++ str_of_int i ++ " could not be found.")).
Proof.
  rewrite serve_get_account. cbn [fst].
  destruct (find (has_id (Some i)) (rows (store w))) as [a | ] eqn:E.
  - left. exists a. apply find_by_id_some in E. now destruct E.
  - right. split; [now apply find_by_id_none | reflexivity].
Qed.

(** ** Deleting *)

(** C4: DELETE /accounts/{id} returns 204 with an empty body whether or not
    the Account exists, no Account with that id is in the store afterwards,
    and a second DELETE right after returns 204 again and changes nothing
    in the store. *)
Theorem delete_account_idempotent (i : Z) (req req' : request) (w : world) :
  let once := serve (DELETE_account i) req w in
  let twice := serve (DELETE_account i) req' (snd once) in
  fst once = mkResponse 204 (Text "") [] /\
  (forall a, In a (rows (store (snd once))) -> id a <> Some i) /\
  fst twice = mkResponse 204 (Text "") [] /\
  store (snd twice) = store (snd once).
Proof.
  cbn zeta. rewrite !serve_delete_account. cbn [fst snd].
  assert (Hgone : find (has_id (Some i))
                    (rows (store
                      match find (has_id (Some i)) (rows (store w)) with
                      | Some a =>
                          mkWorld
                            (mkDatabase
                               (filter (fun r => negb (has_id (Some i) r))
                                       (rows (store w)))
                               (next_id (store w)))
                            (today w) ((calls w ++ [SelectById i]) ++ [Delete a])
                      | None => mkWorld (store w) (today w) (calls w ++ [SelectById i])
                      end)) = None).
  { destruct (find (has_id (Some i)) (rows (store w))) eqn:E; cbn.
    - apply find_after_delete.
    - exact E. }
  repeat split.
  - now apply find_by_id_none.
  - now rewrite Hgone.
Qed.

(** ** Creating *)

(** C5: a POST /accounts with Content-Type application/json whose body
    deserializes to an Account is answered with 201, the serialized created
    Account (with the id the store assigned) as body and a Location header
    (the placeholder "/"); the table gains exactly that one row. *)
Theorem create_accounts_created
    (req : request) (data : json) (w : world) (a : Account) :
  headers_get "Content-Type" (headers req) = Some "application/json" ->
  json_payload req = Loaded data ->
  deserialize (today w) (Account_new (today w)) data = inl a ->
  let created := created_row (store w) a in
  let resp := fst (serve POST_accounts req w) in
  let w' := snd (serve POST_accounts req w) in
  status_code resp = 201 /\
  payload resp = Json (serialize created) /\
  id created = Some (next_id (store w)) /\
  headers_get "Location" (response_headers resp) = Some "/" /\
  rows (store w') = (rows (store w) ++ [created])%list /\
  List.length (rows (store w')) = S (List.length (rows (store w))).
Proof.
  intros Hct Hload Hok. cbn zeta.
  rewrite serve_create_accounts, (content_type_json req Hct), Hload, Hok.
  cbn. repeat split. rewrite List.length_app. cbn. lia.
Qed.

Lemma create_accounts_created_witness :
  status_code (fst (serve POST_accounts json_update_request one_account_world)) = 201 /\
  payload (fst (serve POST_accounts json_update_request one_account_world)) =
    Json (serialize (created_row (store one_account_world) new_account)) /\
  id (created_row (store one_account_world) new_account) = Some 2 /\
  headers_get "Location"
    (response_headers (fst (serve POST_accounts json_update_request one_account_world)))
    = Some "/" /\
  rows (store (snd (serve POST_accounts json_update_request one_account_world))) =
    [sample_account; created_row (store one_account_world) new_account] /\
  List.length
    (rows (store (snd (serve POST_accounts json_update_request one_account_world)))) = 2%nat.
Proof.
  exact (create_accounts_created json_update_request updated_data
           one_account_world new_account eq_refl eq_refl eq_refl).
Defined.

(** ** Listing *)

(** C6: GET /accounts returns 200 with the JSON array of the serializations
    of the stored Accounts, one entry per row; on an empty table the body is
    the empty array. *)
Theorem list_accounts_all (req : request) (w : world) (next : Z)
    (clock : date) (log : list db_call) :
  fst (serve GET_accounts req w) =
    mkResponse 200 (Json (JArr (map serialize (rows (store w))))) [] /\
  List.length (map serialize (rows (store w))) = List.length (rows (store w)) /\
  fst (serve GET_accounts req (mkWorld (mkDatabase [] next) clock log)) =
    mkResponse 200 (Json (JArr [])) [].
Proof.
  rewrite !serve_list_accounts. cbn. repeat split. apply List.length_map.
Qed.

(** ** The wire record *)

(** C7: for every Account with a valid date, deserializing its
    serialization gives back the same name, email, address, phone_number
    and date_joined; the id is the target's own, not the one on the
    wire. *)
Theorem deserialize_serialize_roundtrip (clock : date) (self a : Account) :
  valid_date (date_joined a) = true ->
  deserialize clock self (serialize a) =
    inl (mkAccount (id self) (name a) (email a) (address a) (phone_number a)
                   (date_joined a)).
Proof.
  intros Hv. unfold deserialize, serialize, text_field, date_field.
  cbn [dict_get String.eqb Ascii.eqb Bool.eqb].
  now rewrite (fromisoformat_isoformat _ Hv).
Qed.

Lemma deserialize_serialize_roundtrip_witness :
  valid_date (date_joined sample_account) = true /\
  deserialize (mkDate 2024 2 29) (Account_new (mkDate 2024 2 29))
              (serialize sample_account) =
    inl (mkAccount None "Ada" "ada@example.com" "1 Main St" "555-0100"
                   (mkDate 2023 5 17)).
Proof.
  split; [reflexivity | ].
  apply (deserialize_serialize_roundtrip (mkDate 2024 2 29)
           (Account_new (mkDate 2024 2 29)) sample_account).
  reflexivity.
Defined.

(** ** Bad requests *)

(** C8: a POST /accounts with Content-Type application/json whose body
    lacks a required text field, or fails deserialization in any other way,
    is answered with 400; the world is as before, so no Account is created
    and no store operation is attempted. *)
Theorem create_accounts_bad_request (req : request) (data : json) (w : world) :
  headers_get "Content-Type" (headers req) = Some "application/json" ->
  json_payload req = Loaded data ->
  missing_required_field data = true \/
  (exists e, deserialize (today w) (Account_new (today w)) data = inr e) ->
  exists message,
    serve POST_accounts req w = (error_response 400 message, w).
Proof.
  intros Hct Hload Hbad.
  assert (Hfail : exists e,
             deserialize (today w) (Account_new (today w)) data = inr e).
  { destruct Hbad as [Hmissing | Hfail]; [ | exact Hfail].
    now apply deserialize_missing_field. }
  destruct Hfail as [e He]. exists e.
  now rewrite serve_create_accounts, (content_type_json req Hct), Hload, He.
Qed.

Lemma create_accounts_bad_request_witness :
  missing_required_field not_enough_data = true /\
  exists message,
    serve POST_accounts bad_json_request one_account_world =
    (error_response 400 message, one_account_world).
Proof.
  split; [reflexivity | ].
  apply (create_accounts_bad_request bad_json_request not_enough_data
           one_account_world); [reflexivity | reflexivity | ].
  left. reflexivity.
Defined.

(** ** Updating *)

(** C9, as the code has it: in PUT /accounts/{id} not-found comes before
    the validation of the decoded body.  For every request whose body
    [request.get_json()] decoded, when no Account with the id is in the
    store the answer is 404 whatever wire record was decoded, also one that
    deserialization would reject, since the lookup is made before
    [deserialize] and nothing after it is run; the store is only looked up,
    not changed.  (A body that [get_json] itself rejects is answered before
    the lookup, see the counterexample below.) *)
Theorem update_account_not_found_first
    (i : Z) (req : request) (data : json) (w : world) :
  json_payload req = Loaded data ->
  (forall a, In a (rows (store w)) -> id a <> Some i) ->
  serve (PUT_account i) req w =
  (error_response 404 ("Account with id " ++ str_of_int i ++ " could not be found."),
   mkWorld (store w) (today w) (calls w ++ [SelectById i])).
Proof.
  intros Hload Habsent. apply find_by_id_none in Habsent.
  rewrite serve_update_account, Hload. cbn zeta. now rewrite Habsent.
Qed.

Lemma update_account_not_found_first_witness :
  deserialize (today one_account_world) sample_account not_enough_data =
    inr "Invalid Account: missing email" /\
  serve (PUT_account 0) bad_json_request one_account_world =
  (error_response 404 "Account with id 0 could not be found.",
   mkWorld (store one_account_world) (today one_account_world) [SelectById 0]).
Proof.
  split.
  - reflexivity.
  - apply (update_account_not_found_first 0 bad_json_request not_enough_data
             one_account_world).
    + reflexivity.
    + intros a [<- | []]. discriminate.
Defined.

(** C9 as stated (404 for every request to an id that is not in the store)
    fails: [update_account] calls [request.get_json()] before
    [Account.find], so a body the framework cannot decode is answered with
    the framework's 400 and the store is not looked up, although no account
    has the id 0. *)
Lemma update_account_not_found_first_counterexample :
  find (has_id (Some 0)) (rows (store one_account_world)) = None /\
  status_code (fst (serve (PUT_account 0) undecodable_request one_account_world))
    = 400 /\
  status_code (fst (serve (PUT_account 0) undecodable_request one_account_world))
    <> 404 /\
  snd (serve (PUT_account 0) undecodable_request one_account_world)
    = one_account_world.
Proof.
  repeat split; try reflexivity. discriminate.
Qed.

(** ** Read-only routes *)

(** C10: GET /health, GET /accounts and GET /accounts/{id} leave the store
    as it is, for every request and every store: the table and the id
    sequence after the request are those before it. *)
Theorem read_only_routes_keep_store (i : Z) (req : request) (w : world) :
  store (snd (serve GET_health req w)) = store w /\
  store (snd (serve GET_accounts req w)) = store w /\
  store (snd (serve (GET_account i) req w)) = store w.
Proof.
  rewrite serve_health, serve_list_accounts, serve_get_account.
  repeat split.
Qed.

(** * Further properties of the routes *)

(** ** [check_content_type] *)

(** X1: [check_content_type] returns only when the Content-Type header is
    exactly the media type and that text is not empty; in every other case
    it aborts with 415 and the message naming the media type.  Either way
    the world is untouched. *)
Theorem check_content_type_exact (req : request) (media_type : string) (w : world) :
  (headers_get "Content-Type" (headers req) = Some media_type /\
   media_type <> "" /\
   check_content_type req media_type w = (Returned tt, w))
  \/
  ((headers_get "Content-Type" (headers req) <> Some media_type \/ media_type = "") /\
   check_content_type req media_type w =
     (HTTPException 415 ("Content-Type must be " ++ media_type), w)).
Proof.
  unfold check_content_type, content_type_matches.
  destruct (headers_get "Content-Type" (headers req)) as [ct | ].
  - destruct (String.eqb ct media_type) eqn:Eeq.
    + apply String.eqb_eq in Eeq. subst ct.
      destruct (String.eqb media_type "") eqn:Eempty.
      * apply String.eqb_eq in Eempty. right. split; [now right | reflexivity].
      * apply String.eqb_neq in Eempty. left. now repeat split.
    + apply String.eqb_neq in Eeq. right. split.
      * left. congruence.
      * now rewrite andb_false_r.
  - right. split; [left; discriminate | reflexivity].
Qed.

Lemma create_accounts_unsupported_media_type_witness :
  headers_get "Content-Type" (headers charset_request) <> Some "application/json" /\
  serve POST_accounts charset_request one_account_world =
  (error_response 415 "Content-Type must be application/json", one_account_world).
Proof.
  assert (H : headers_get "Content-Type" (headers charset_request)
              <> Some "application/json") by discriminate.
  split; [exact H | ].
  exact (create_accounts_unsupported_media_type charset_request one_account_world H).
Defined.

(** ** POST [/accounts] *)

(** X3: a POST either creates (201, the created row as body, the Location
    header, the row appended and one insert sent to the store) or leaves
    the world exactly as it was: no lookup, no write, no key used up. *)
Theorem create_accounts_inserts_or_nothing (req : request) (w : world) :
  (exists a,
      serve POST_accounts req w =
      (mkResponse 201 (Json (serialize (created_row (store w) a)))
                  [("Location", "/")],
       mkWorld (mkDatabase (rows (store w) ++ [created_row (store w) a])
                           (next_id (store w) + 1))
               (today w) (calls w ++ [Insert a])))
  \/ snd (serve POST_accounts req w) = w.
Proof.
  rewrite serve_create_accounts.
  destruct (content_type_matches _ _); [ | now right].
  destruct (json_payload req) as [data | code description]; [ | now right].
  destruct (deserialize _ _ data) as [a | e]; [ | now right].
  left. now exists a.
Qed.

(** ** PUT [/accounts/<id>] *)

(** X4: [update_account] reads the body first: when [request.get_json()]
    leaves with an HTTP error, that error is the response and the store is
    not even looked up, whether or not the id exists. *)
Theorem update_account_body_error_first
    (i : Z) (req : request) (code : Z) (description : string) (w : world) :
  json_payload req = NotLoaded code description ->
  serve (PUT_account i) req w = (error_response code description, w).
Proof. intros H. now rewrite serve_update_account, H. Qed.

Lemma update_account_body_error_first_witness :
  serve (PUT_account 0) (mkRequest json_headers (NotLoaded 400 "Bad Request"))
        one_account_world =
  (error_response 400 "Bad Request", one_account_world).
Proof.
  exact (update_account_body_error_first 0
           (mkRequest json_headers (NotLoaded 400 "Bad Request"))
           400 "Bad Request" one_account_world eq_refl).
Defined.

Lemma deserialize_keeps_id (clock : date) (self a' : Account) (data : json) :
  deserialize clock self data = inl a' -> id a' = id self.
Proof.
  unfold deserialize. destruct data as [ | b | z | s | items | members];
    try discriminate.
  destruct (text_field "name" members); [ | discriminate].
  destruct (text_field "email" members); [ | discriminate].
  destruct (text_field "address" members); [ | discriminate].
  destruct (text_field "phone_number" members); [ | discriminate].
  destruct (date_field clock members); [ | discriminate].
  intros H. injection H as <-. reflexivity.
Qed.

Section Update.
Variables (i : Z) (a' : Account).
Hypothesis Hid : id a' = Some i.

(* The row [Account_update] writes in place of [r]. *)
Local Notation "'put'" :=
  (fun r : Account => if has_id (id a') r then a' else r) (only parsing).

Lemma put_keeps_id (r : Account) : id (put r) = id r.
Proof.
  cbv beta. rewrite Hid. destruct (has_id (Some i) r) eqn:E; [ | reflexivity].
  apply has_id_true in E. congruence.
Qed.

Lemma has_id_put (j : option Z) (r : Account) : has_id j (put r) = has_id j r.
Proof. unfold has_id at 1 3. now rewrite put_keeps_id. Qed.

Lemma find_after_update (table : list Account) (a : Account) :
  find (has_id (Some i)) table = Some a ->
  find (has_id (Some i)) (map put table) = Some a'.
Proof.
  induction table as [ | r table IH]; [discriminate | ].
  cbn [find map]. rewrite has_id_put.
  destruct (has_id (Some i) r) eqn:E; [ | exact IH].
  intros _. now rewrite Hid, E.
Qed.

Lemma find_other_after_update (j : Z) (table : list Account) :
  j <> i ->
  find (has_id (Some j)) (map put table) = find (has_id (Some j)) table.
Proof.
  intros Hj. induction table as [ | r table IH]; [reflexivity | ].
  cbn [find map]. rewrite has_id_put, IH.
  destruct (has_id (Some j) r) eqn:E; [ | reflexivity].
  rewrite Hid.
  destruct (has_id (Some i) r) eqn:E'; [ | reflexivity].
  apply has_id_true in E, E'. congruence.
Qed.
End Update.

Lemma find_other_after_delete (i j : Z) (table : list Account) :
  j <> i ->
  find (has_id (Some j)) (filter (fun r => negb (has_id (Some i) r)) table) =
  find (has_id (Some j)) table.
Proof.
  intros Hj. induction table as [ | r table IH]; [reflexivity | ].
  cbn [find filter].
  destruct (has_id (Some i) r) eqn:Ei; cbn [negb find].
  - destruct (has_id (Some j) r) eqn:E; [ | exact IH].
    apply has_id_true in E, Ei. congruence.
  - now rewrite IH.
Qed.

Lemma delete_absent_keeps_table (i : Z) (table : list Account) :
  find (has_id (Some i)) table = None ->
  filter (fun r => negb (has_id (Some i) r)) table = table.
Proof.
  induction table as [ | r table IH]; [reflexivity | ].
  cbn [find filter]. destruct (has_id (Some i) r); [discriminate | ].
  intros H. cbn. now rewrite IH.
Qed.

(** X5: a PUT on a stored id with a body that deserializes answers 200 with
    the serialized updated account, which keeps the id of the path; the
    table has as many rows as before, the id sequence is untouched, the
    lookup of the id gives the updated account and the lookup of every
    other id gives what it gave before. *)
Theorem update_account_updates
    (i : Z) (req : request) (data : json) (w : world) (a a' : Account) :
  json_payload req = Loaded data ->
  find (has_id (Some i)) (rows (store w)) = Some a ->
  deserialize (today w) a data = inl a' ->
  fst (serve (PUT_account i) req w) = mkResponse 200 (Json (serialize a')) [] /\
  id a' = Some i /\
  next_id (store (snd (serve (PUT_account i) req w))) = next_id (store w) /\
  List.length (rows (store (snd (serve (PUT_account i) req w)))) =
    List.length (rows (store w)) /\
  find (has_id (Some i)) (rows (store (snd (serve (PUT_account i) req w)))) =
    Some a' /\
  (forall j, j <> i ->
     find (has_id (Some j)) (rows (store (snd (serve (PUT_account i) req w)))) =
     find (has_id (Some j)) (rows (store w))).
Proof.
  intros Hload Hfound Hok.
  assert (Hid : id a' = Some i).
  { rewrite (deserialize_keeps_id _ _ _ _ Hok).
    now apply find_by_id_some in Hfound. }
  rewrite serve_update_account, Hload. cbn zeta. rewrite Hfound, Hok.
  cbn [fst snd store rows next_id]. repeat split.
  - exact Hid.
  - apply List.length_map.
  - now apply find_after_update with (i := i) (a := a).
  - intros j Hj. now apply find_other_after_update with (i := i).
Qed.

Lemma update_account_updates_witness :
  fst (serve (PUT_account 1) json_update_request one_account_world) =
    mkResponse 200 (Json (serialize updated_account)) [] /\
  id updated_account = Some 1 /\
  next_id (store (snd (serve (PUT_account 1) json_update_request one_account_world)))
    = next_id (store one_account_world) /\
  List.length (rows (store (snd (serve (PUT_account 1) json_update_request
                                       one_account_world))))
    = List.length (rows (store one_account_world)) /\
  find (has_id (Some 1))
       (rows (store (snd (serve (PUT_account 1) json_update_request
                                one_account_world))))
    = Some updated_account /\
  (forall j, j <> 1 ->
     find (has_id (Some j))
          (rows (store (snd (serve (PUT_account 1) json_update_request
                                   one_account_world)))) =
     find (has_id (Some j)) (rows (store one_account_world))).
Proof.
  exact (update_account_updates 1 json_update_request updated_data
           one_account_world sample_account updated_account
           eq_refl eq_refl eq_refl).
Defined.

(** X6: what a successful PUT answered is what the next GET of the same id
    answers: same status 200, same body. *)
Theorem update_then_get
    (i : Z) (req req' : request) (data : json) (w : world) (a a' : Account) :
  json_payload req = Loaded data ->
  find (has_id (Some i)) (rows (store w)) = Some a ->
  deserialize (today w) a data = inl a' ->
  fst (serve (GET_account i) req' (snd (serve (PUT_account i) req w))) =
  fst (serve (PUT_account i) req w).
Proof.
  intros Hload Hfound Hok.
  assert (Hid : id a' = Some i).
  { rewrite (deserialize_keeps_id _ _ _ _ Hok).
    now apply find_by_id_some in Hfound. }
  rewrite serve_get_account, serve_update_account, Hload. cbn zeta.
  rewrite Hfound, Hok. cbn [fst snd store rows].
  now rewrite (find_after_update i a' Hid _ a Hfound).
Qed.

Lemma update_then_get_witness :
  fst (serve (GET_account 1) charset_request
         (snd (serve (PUT_account 1) json_update_request one_account_world))) =
  fst (serve (PUT_account 1) json_update_request one_account_world).
Proof.
  exact (update_then_get 1 json_update_request charset_request updated_data
           one_account_world sample_account updated_account
           eq_refl eq_refl eq_refl).
Defined.

(** ** DELETE [/accounts/<id>] *)

(** X7: DELETE removes the rows under the id and nothing else: the other
    rows stay, in order, every other id reads as before, and the id
    sequence is untouched. *)
Theorem delete_account_frame (i : Z) (req : request) (w : world) :
  rows (store (snd (serve (DELETE_account i) req w))) =
    filter (fun r => negb (has_id (Some i) r)) (rows (store w)) /\
  next_id (store (snd (serve (DELETE_account i) req w))) = next_id (store w) /\
  (forall j, j <> i ->
     find (has_id (Some j)) (rows (store (snd (serve (DELETE_account i) req w)))) =
     find (has_id (Some j)) (rows (store w))).
Proof.
  rewrite serve_delete_account. cbn [snd].
  destruct (find (has_id (Some i)) (rows (store w))) as [a | ] eqn:E;
    cbn [store rows next_id].
  - repeat split. intros j Hj. now apply find_other_after_delete.
  - rewrite (delete_absent_keeps_table i _ E). now repeat split.
Qed.

(** X8: the guard [if account:] of [delete_account]: for an id that is not
    in the store the only store operation is the lookup; no delete is
    sent and the store is the same. *)
Theorem delete_account_missing (i : Z) (req : request) (w : world) :
  (forall a, In a (rows (store w)) -> id a <> Some i) ->
  serve (DELETE_account i) req w =
  (mkResponse 204 (Text "") [],
   mkWorld (store w) (today w) (calls w ++ [SelectById i])).
Proof.
  intros H. apply find_by_id_none in H.
  now rewrite serve_delete_account, H.
Qed.

Lemma delete_account_missing_witness :
  serve (DELETE_account 0) bad_json_request one_account_world =
  (mkResponse 204 (Text "") [],
   mkWorld (store one_account_world) (today one_account_world) [SelectById 0]).
Proof.
  apply (delete_account_missing 0 bad_json_request one_account_world).
  intros a [<- | []]. discriminate.
Defined.

(** X9: after a DELETE the GET of the same id answers 404 with the
    message naming the id, whatever the store held. *)
Theorem delete_then_get (i : Z) (req req' : request) (w : world) :
  fst (serve (GET_account i) req' (snd (serve (DELETE_account i) req w))) =
  error_response 404 ("Account with id " ++ str_of_int i ++ " could not be found.").
Proof.
  rewrite serve_get_account, serve_delete_account. cbn [fst snd].
  destruct (find (has_id (Some i)) (rows (store w))) eqn:E; cbn [store rows].
  - now rewrite find_after_delete.
  - now rewrite E.
Qed.

(** ** The table stays well-keyed *)

Section KeyPreserving.
Variable f : Account -> Account.
Hypothesis f_id : forall r, id (f r) = id r.

Lemma existsb_has_id_map (j : option Z) (table : list Account) :
  existsb (has_id j) (map f table) = existsb (has_id j) table.
Proof.
  induction table as [ | r table IH]; [reflexivity | ].
  cbn. rewrite IH. f_equal. unfold has_id. now rewrite f_id.
Qed.

Lemma distinct_ids_map (table : list Account) :
  distinct_ids (map f table) = distinct_ids table.
Proof.
  induction table as [ | r table IH]; [reflexivity | ].
  cbn. now rewrite f_id, existsb_has_id_map, IH.
Qed.

Lemma forallb_id_below_map (n : Z) (table : list Account) :
  forallb (id_below n) (map f table) = forallb (id_below n) table.
Proof.
  induction table as [ | r table IH]; [reflexivity | ].
  cbn. rewrite IH. f_equal. unfold id_below. now rewrite f_id.
Qed.
End KeyPreserving.

Lemma id_below_weaken (n m : Z) (table : list Account) :
  n <= m ->
  forallb (id_below n) table = true -> forallb (id_below m) table = true.
Proof.
  intros Hnm. rewrite !forallb_forall. intros H r Hr. specialize (H r Hr).
  unfold id_below in *. destruct (id r) as [x | ]; [ | discriminate].
  apply andb_true_iff in H. destruct H as [H1 H2].
  apply andb_true_iff. split; [exact H1 | ].
  apply Z.ltb_lt in H2. apply Z.ltb_lt. lia.
Qed.

(** A key at or above the sequence is not in a well-keyed table. *)
Lemma id_below_fresh (n i : Z) (table : list Account) :
  n <= i ->
  forallb (id_below n) table = true ->
  existsb (has_id (Some i)) table = false.
Proof.
  intros Hi H. induction table as [ | r table IH]; [reflexivity | ].
  cbn in *. apply andb_true_iff in H. destruct H as [Hr Ht].
  rewrite (IH Ht), orb_false_r.
  unfold id_below in Hr. unfold has_id.
  destruct (id r) as [x | ]; [ | reflexivity].
  apply andb_true_iff in Hr. destruct Hr as [_ Hx].
  apply Z.ltb_lt in Hx. apply Z.eqb_neq. lia.
Qed.

Lemma existsb_find_none (i : Z) (table : list Account) :
  existsb (has_id (Some i)) table = false <->
  find (has_id (Some i)) table = None.
Proof.
  induction table as [ | r table IH]; [now split | ].
  cbn. destruct (has_id (Some i) r); cbn; [split; discriminate | exact IH].
Qed.

Lemma has_id_sym (r r' : Account) : has_id (id r) r' = has_id (id r') r.
Proof.
  unfold has_id. destruct (id r), (id r'); try reflexivity. apply Z.eqb_sym.
Qed.

Lemma distinct_ids_snoc (table : list Account) (r : Account) :
  distinct_ids (table ++ [r]) =
  distinct_ids table && negb (existsb (has_id (id r)) table).
Proof.
  induction table as [ | x table IH].
  - reflexivity.
  - cbn. rewrite IH, existsb_app. cbn. rewrite orb_false_r.
    rewrite (has_id_sym x r).
    destruct (existsb (has_id (id x)) table), (has_id (id r) x),
      (distinct_ids table), (existsb (has_id (id r)) table); reflexivity.
Qed.

Lemma existsb_filter_false {A} (p q : A -> bool) (l : list A) :
  existsb p l = false -> existsb p (filter q l) = false.
Proof.
  induction l as [ | x l IH]; [reflexivity | ].
  cbn. intros H. apply orb_false_iff in H. destruct H as [Hx Hl].
  destruct (q x); cbn; [rewrite Hx | ]; auto.
Qed.

Lemma distinct_ids_filter (q : Account -> bool) (table : list Account) :
  distinct_ids table = true -> distinct_ids (filter q table) = true.
Proof.
  induction table as [ | r table IH]; [reflexivity | ].
  cbn. intros H. apply andb_true_iff in H. destruct H as [Hr Ht].
  destruct (q r); cbn; [ | now apply IH].
  apply andb_true_iff. split; [ | now apply IH].
  apply negb_true_iff in Hr. apply negb_true_iff.
  now apply existsb_filter_false.
Qed.

Lemma forallb_filter {A} (p q : A -> bool) (l : list A) :
  forallb p l = true -> forallb p (filter q l) = true.
Proof.
  rewrite !forallb_forall. intros H x Hx. apply filter_In in Hx. now apply H.
Qed.

Lemma store_ok_insert (db : database) (a : Account) :
  store_ok db = true ->
  store_ok (mkDatabase (rows db ++ [created_row db a]) (next_id db + 1)) = true.
Proof.
  unfold store_ok. cbn [rows next_id]. rewrite !andb_true_iff.
  intros [[Hn Hbelow] Hdistinct]. apply Z.leb_le in Hn. repeat split.
  - apply Z.leb_le. lia.
  - rewrite forallb_app. apply andb_true_iff. split.
    + apply (id_below_weaken (next_id db)); [lia | exact Hbelow].
    + cbn. rewrite andb_true_r. unfold id_below. cbn.
      apply andb_true_iff. split; [apply Z.leb_le | apply Z.ltb_lt]; lia.
  - rewrite distinct_ids_snoc, Hdistinct. cbn [created_row id andb].
    now rewrite (id_below_fresh (next_id db) (next_id db) _ (Z.le_refl _) Hbelow).
Qed.

Lemma store_ok_update (db : database) (i : Z) (a' : Account) :
  id a' = Some i ->
  store_ok db = true ->
  store_ok (mkDatabase (map (fun r => if has_id (id a') r then a' else r) (rows db))
                       (next_id db)) = true.
Proof.
  intros Hid. unfold store_ok. cbn [rows next_id].
  rewrite (forallb_id_below_map _ (put_keeps_id i a' Hid)).
  now rewrite (distinct_ids_map _ (put_keeps_id i a' Hid)).
Qed.

Lemma store_ok_delete (db : database) (q : Account -> bool) :
  store_ok db = true ->
  store_ok (mkDatabase (filter q (rows db)) (next_id db)) = true.
Proof.
  unfold store_ok. cbn [rows next_id]. rewrite !andb_true_iff.
  intros [[Hn Hbelow] Hdistinct]. repeat split.
  - exact Hn.
  - now apply forallb_filter.
  - now apply distinct_ids_filter.
Qed.

(** X10: every route keeps the table well-keyed: if every stored id is
    positive, below the id sequence and used by one row only, the same
    holds after the request, whatever the route, the request and its
    outcome. *)
Theorem serve_keeps_store_ok (r : route) (req : request) (w : world) :
  store_ok (store w) = true ->
  store_ok (store (snd (serve r req w))) = true.
Proof.
  intros Hok. destruct r as [ | | | | i | i | i].
  - exact Hok.
  - exact Hok.
  - rewrite serve_create_accounts.
    destruct (content_type_matches _ _); [ | exact Hok].
    destruct (json_payload req) as [data | code description]; [ | exact Hok].
    destruct (deserialize _ _ data) as [a | e]; [ | exact Hok].
    cbn [snd store]. now apply store_ok_insert.
  - now rewrite serve_list_accounts.
  - now rewrite serve_get_account.
  - rewrite serve_update_account.
    destruct (json_payload req) as [data | code description]; [ | exact Hok].
    cbn zeta. destruct (find _ _) as [a | ] eqn:Hfound; [ | exact Hok].
    destruct (deserialize _ a data) as [a' | e] eqn:Hdes; [ | exact Hok].
    cbn [snd store]. apply (store_ok_update _ i); [ | exact Hok].
    rewrite (deserialize_keeps_id _ _ _ _ Hdes).
    now apply find_by_id_some in Hfound.
  - rewrite serve_delete_account. cbn [snd].
    destruct (find _ _); [ | exact Hok].
    cbn [store]. now apply store_ok_delete.
Qed.

Lemma serve_keeps_store_ok_witness :
  store_ok (store one_account_world) = true /\
  store_ok (store (snd (serve POST_accounts json_update_request one_account_world)))
  = true.
Proof.
  split; [reflexivity | ].
  apply (serve_keeps_store_ok POST_accounts json_update_request one_account_world).
  reflexivity.
Defined.

(** ** Reading a wire record whose members are known *)

Lemma deserialize_members
    (clock : date) (self : Account) (members : list (string * json))
    (n m ad p : string) (d : date) :
  dict_get "name" members = Some (JStr n) ->
  dict_get "email" members = Some (JStr m) ->
  dict_get "address" members = Some (JStr ad) ->
  dict_get "phone_number" members = Some (JStr p) ->
  dict_get "date_joined" members = Some (JStr (isoformat d)) ->
  valid_date d = true ->
  deserialize clock self (JObj members) = inl (mkAccount (id self) n m ad p d).
Proof.
  intros Hn Hm Had Hp Hd Hv. unfold deserialize, text_field, date_field.
  now rewrite Hn, Hm, Had, Hp, Hd, (fromisoformat_isoformat d Hv).
Qed.

Lemma deserialize_posted (clock : date) (self a : Account) :
  valid_date (date_joined a) = true ->
  deserialize clock self (serialize a) = inl (set_id (id self) a).
Proof.
  intros Hv. unfold serialize, set_id.
  now apply deserialize_members.
Qed.

Lemma find_app_fresh (i : Z) (table : list Account) (r : Account) :
  find (has_id (Some i)) table = None ->
  find (has_id (Some i)) (table ++ [r]) =
  if has_id (Some i) r then Some r else None.
Proof.
  induction table as [ | x table IH]; [reflexivity | ].
  cbn. destruct (has_id (Some i) x); [discriminate | exact IH].
Qed.

Lemma store_ok_fresh (db : database) :
  store_ok db = true -> find (has_id (Some (next_id db))) (rows db) = None.
Proof.
  unfold store_ok. rewrite !andb_true_iff. intros [[_ Hbelow] _].
  apply existsb_find_none.
  now apply (id_below_fresh (next_id db)); [lia | ].
Qed.

(** ** Requests in a row *)

(** X11: on a well-keyed table, the account a POST created is what the GET
    of its new id answers: status 200 and the very body of the 201. *)
Theorem create_then_get
    (req req' : request) (data : json) (w : world) (a : Account) :
  headers_get "Content-Type" (headers req) = Some "application/json" ->
  json_payload req = Loaded data ->
  deserialize (today w) (Account_new (today w)) data = inl a ->
  store_ok (store w) = true ->
  fst (serve (GET_account (next_id (store w))) req' (snd (serve POST_accounts req w))) =
  mkResponse 200 (payload (fst (serve POST_accounts req w))) [].
Proof.
  intros Hct Hload Hok Hkeys.
  rewrite serve_get_account, serve_create_accounts,
    (content_type_json req Hct), Hload, Hok.
  cbn [fst snd store rows payload].
  rewrite (find_app_fresh _ _ _ (store_ok_fresh _ Hkeys)).
  unfold has_id at 1. cbn [created_row id]. now rewrite Z.eqb_refl.
Qed.

Lemma create_then_get_witness :
  fst (serve (GET_account 2) charset_request
         (snd (serve POST_accounts json_update_request one_account_world))) =
  mkResponse 200
    (payload (fst (serve POST_accounts json_update_request one_account_world))) [].
Proof.
  exact (create_then_get json_update_request charset_request updated_data
           one_account_world new_account eq_refl eq_refl eq_refl eq_refl).
Defined.

(** X12: after a POST that created an account, the listing is the listing
    from before with the body of the 201 added at the end. *)
Theorem create_then_list
    (req req' : request) (data : json) (w : world) (a : Account) :
  headers_get "Content-Type" (headers req) = Some "application/json" ->
  json_payload req = Loaded data ->
  deserialize (today w) (Account_new (today w)) data = inl a ->
  fst (serve GET_accounts req' (snd (serve POST_accounts req w))) =
  mkResponse 200
    (Json (JArr (map serialize (rows (store w))
                 ++ [serialize (created_row (store w) a)])))
    [] /\
  payload (fst (serve POST_accounts req w)) =
    Json (serialize (created_row (store w) a)).
Proof.
  intros Hct Hload Hok.
  rewrite serve_list_accounts, serve_create_accounts,
    (content_type_json req Hct), Hload, Hok.
  cbn [fst snd store rows payload]. now rewrite map_app.
Qed.

Lemma create_then_list_witness :
  fst (serve GET_accounts charset_request
         (snd (serve POST_accounts json_update_request one_account_world))) =
  mkResponse 200
    (Json (JArr (map serialize (rows (store one_account_world))
                 ++ [serialize (created_row (store one_account_world) new_account)])))
    [] /\
  payload (fst (serve POST_accounts json_update_request one_account_world)) =
    Json (serialize (created_row (store one_account_world) new_account)).
Proof.
  exact (create_then_list json_update_request charset_request updated_data
           one_account_world new_account eq_refl eq_refl eq_refl).
Defined.

Lemma delete_one_row (i : Z) (table : list Account) (a : Account) :
  distinct_ids table = true ->
  find (has_id (Some i)) table = Some a ->
  S (List.length (filter (fun r => negb (has_id (Some i) r)) table)) =
  List.length table.
Proof.
  induction table as [ | r table IH]; [discriminate | ].
  cbn [distinct_ids find filter]. intros Hd Hf.
  apply andb_true_iff in Hd. destruct Hd as [Hr Ht].
  destruct (has_id (Some i) r) eqn:E; cbn [negb].
  - apply has_id_true in E. rewrite E in Hr. apply negb_true_iff in Hr.
    apply existsb_find_none in Hr.
    now rewrite (delete_absent_keeps_table i table Hr).
  - cbn [List.length]. f_equal. now apply IH.
Qed.

Lemma put_absent_keeps_table (j : option Z) (a : Account) (table : list Account) :
  existsb (has_id j) table = false ->
  map (fun r => if has_id j r then a else r) table = table.
Proof.
  induction table as [ | r table IH]; [reflexivity | ].
  cbn. intros H. apply orb_false_iff in H. destruct H as [Hr Ht].
  now rewrite Hr, (IH Ht).
Qed.

Lemma put_same_keeps_table (i : Z) (a : Account) (table : list Account) :
  distinct_ids table = true ->
  find (has_id (Some i)) table = Some a ->
  map (fun r => if has_id (id a) r then a else r) table = table.
Proof.
  intros Hd Hf.
  assert (Hid : id a = Some i) by now apply find_by_id_some in Hf.
  rewrite Hid. revert Hd Hf.
  induction table as [ | r table IH]; [discriminate | ].
  cbn [distinct_ids find map]. intros Hd Hf.
  apply andb_true_iff in Hd. destruct Hd as [Hr Ht].
  destruct (has_id (Some i) r) eqn:E.
  - injection Hf as ->. apply has_id_true in E. rewrite E in Hr.
    apply negb_true_iff in Hr.
    now rewrite (put_absent_keeps_table (Some i) a table Hr).
  - f_equal. now apply IH.
Qed.

(** X13: on a well-keyed table, the DELETE of a stored id removes exactly
    one row. *)
Theorem delete_account_removes_one
    (i : Z) (req : request) (w : world) (a : Account) :
  store_ok (store w) = true ->
  find (has_id (Some i)) (rows (store w)) = Some a ->
  S (List.length (rows (store (snd (serve (DELETE_account i) req w))))) =
  List.length (rows (store w)).
Proof.
  intros Hkeys Hfound. rewrite serve_delete_account, Hfound.
  cbn [snd store rows]. apply (delete_one_row i _ a); [ | exact Hfound].
  unfold store_ok in Hkeys. now apply andb_true_iff in Hkeys.
Qed.

Lemma delete_account_removes_one_witness :
  S (List.length
       (rows (store (snd (serve (DELETE_account 1) bad_json_request
                                one_account_world))))) =
  List.length (rows (store one_account_world)).
Proof.
  exact (delete_account_removes_one 1 bad_json_request one_account_world
           sample_account eq_refl eq_refl).
Defined.

(** X14: sending the body of a GET back in a PUT to the same id changes
    nothing: on a well-keyed table, for an account whose date is a day of
    the calendar, the PUT answers 200 with that same body and the store is
    as before. *)
Theorem put_back_changes_nothing
    (i : Z) (req : request) (w : world) (a : Account) :
  store_ok (store w) = true ->
  find (has_id (Some i)) (rows (store w)) = Some a ->
  valid_date (date_joined a) = true ->
  json_payload req = Loaded (serialize a) ->
  fst (serve (PUT_account i) req w) = mkResponse 200 (Json (serialize a)) [] /\
  store (snd (serve (PUT_account i) req w)) = store w.
Proof.
  intros Hkeys Hfound Hv Hload.
  assert (Hback : deserialize (today w) a (serialize a) = inl a).
  { rewrite (deserialize_posted _ _ _ Hv). now destruct a. }
  rewrite serve_update_account, Hload. cbn zeta. rewrite Hfound, Hback.
  cbn [fst snd store]. split; [reflexivity | ].
  rewrite (put_same_keeps_table i a _); [now destruct (store w) | | exact Hfound].
  unfold store_ok in Hkeys. now apply andb_true_iff in Hkeys.
Qed.

Lemma put_back_changes_nothing_witness :
  fst (serve (PUT_account 1) (post_account sample_account) one_account_world) =
    mkResponse 200 (Json (serialize sample_account)) [] /\
  store (snd (serve (PUT_account 1) (post_account sample_account) one_account_world)) =
    store one_account_world.
Proof.
  exact (put_back_changes_nothing 1 (post_account sample_account)
           one_account_world sample_account eq_refl eq_refl eq_refl eq_refl).
Defined.

(** ** Stored dates *)

Lemma fromisoformat_valid (text : string) (d : date) :
  fromisoformat text = Some d -> valid_date d = true.
Proof.
  unfold fromisoformat.
  repeat (destruct text as [ | ? text]; try discriminate).
  destruct (_ && _); [ | discriminate].
  destruct (digits4 _ _ _ _) as [y | ]; [ | discriminate].
  destruct (digits2 _ _) as [m | ]; [ | discriminate].
  destruct (digits2 _ _) as [dd | ]; [ | discriminate].
  destruct (valid_date (mkDate y m dd)) eqn:E; [ | discriminate].
  now intros [= <-].
Qed.

Lemma deserialize_date_valid (clock : date) (self a : Account) (data : json) :
  valid_date clock = true ->
  deserialize clock self data = inl a ->
  valid_date (date_joined a) = true.
Proof.
  intros Hclock. unfold deserialize.
  destruct data as [ | b | z | s | items | members]; try discriminate.
  destruct (text_field "name" members); [ | discriminate].
  destruct (text_field "email" members); [ | discriminate].
  destruct (text_field "address" members); [ | discriminate].
  destruct (text_field "phone_number" members); [ | discriminate].
  destruct (date_field clock members) as [d | ] eqn:Ed; [ | discriminate].
  intros [= <-]. cbn [date_joined].
  unfold date_field in Ed.
  destruct (dict_get "date_joined" members) as [[ | | | txt | | ] | ];
    try discriminate.
  - destruct (fromisoformat txt) as [d' | ] eqn:Es; [ | discriminate].
    injection Ed as <-. now apply (fromisoformat_valid txt).
  - now injection Ed as <-.
Qed.

(** X15: every route keeps the stored dates real: when the clock shows a
    day of the calendar and every stored [date_joined] is one, the same
    holds after the request, whatever body it carried. *)
Theorem serve_keeps_dates_ok (r : route) (req : request) (w : world) :
  valid_date (today w) = true ->
  dates_ok (store w) = true ->
  dates_ok (store (snd (serve r req w))) = true.
Proof.
  intros Hclock Hok. destruct r as [ | | | | i | i | i].
  - exact Hok.
  - exact Hok.
  - rewrite serve_create_accounts.
    destruct (content_type_matches _ _); [ | exact Hok].
    destruct (json_payload req) as [data | code description]; [ | exact Hok].
    destruct (deserialize _ _ data) as [a | e] eqn:Hdes; [ | exact Hok].
    cbn [snd store]. unfold dates_ok in *. cbn [rows].
    rewrite forallb_app, Hok. cbn.
    now rewrite (deserialize_date_valid _ _ _ _ Hclock Hdes).
  - now rewrite serve_list_accounts.
  - now rewrite serve_get_account.
  - rewrite serve_update_account.
    destruct (json_payload req) as [data | code description]; [ | exact Hok].
    cbn zeta. destruct (find _ _) as [a | ]; [ | exact Hok].
    destruct (deserialize _ a data) as [a' | e] eqn:Hdes; [ | exact Hok].
    cbn [snd store]. unfold dates_ok in *. cbn [rows].
    rewrite forallb_forall in *. intros x Hx. apply in_map_iff in Hx.
    destruct Hx as (x0 & <- & Hx0).
    destruct (has_id (id a') x0); [ | now apply Hok].
    exact (deserialize_date_valid _ _ _ _ Hclock Hdes).
  - rewrite serve_delete_account. cbn [snd].
    destruct (find _ _); [ | exact Hok].
    cbn [store]. unfold dates_ok in *. cbn [rows]. now apply forallb_filter.
Qed.

Lemma serve_keeps_dates_ok_witness :
  dates_ok (store (snd (serve (PUT_account 1) json_update_request
                              one_account_world))) = true.
Proof.
  exact (serve_keeps_dates_ok (PUT_account 1) json_update_request
           one_account_world eq_refl eq_refl).
Defined.

(** ** Creating accounts in bulk *)

Lemma post_account_created (a : Account) (w : world) :
  valid_date (date_joined a) = true ->
  serve POST_accounts (post_account a) w =
  (mkResponse 201 (Json (serialize (set_id (Some (next_id (store w))) a)))
              [("Location", "/")],
   mkWorld (mkDatabase (rows (store w) ++ [set_id (Some (next_id (store w))) a])
                       (next_id (store w) + 1))
           (today w) (calls w ++ [Insert (set_id None a)])).
Proof.
  intros Hv. rewrite serve_create_accounts. cbn [post_account headers json_payload].
  change (content_type_matches (headers_get "Content-Type" json_headers)
                               "application/json") with true.
  cbv iota. now rewrite (deserialize_posted _ _ _ Hv).
Qed.

Lemma response_id_serialized
    (code : Z) (a : Account) (hs : list (string * string)) :
  response_id (mkResponse code (Json (serialize a)) hs) = Some (id a).
Proof.
  unfold response_id, serialize. cbn. now destruct (id a).
Qed.

(** X16: [_create_accounts] over accounts with real dates never fails its
    assertion: it returns the accounts under consecutive ids from the id
    sequence, the table grows by exactly these rows in order, the sequence
    moves on by their number, and the listing that follows shows the old
    rows followed by the returned accounts, serialized, in order. *)
Theorem create_accounts_in_bulk (factory : list Account) (req : request) (w : world) :
  forallb (fun a => valid_date (date_joined a)) factory = true ->
  fst (_create_accounts factory w) =
    Some (numbered (next_id (store w)) factory) /\
  rows (store (snd (_create_accounts factory w))) =
    (rows (store w) ++ numbered (next_id (store w)) factory)%list /\
  next_id (store (snd (_create_accounts factory w))) =
    next_id (store w) + Z.of_nat (List.length factory) /\
  fst (serve GET_accounts req (snd (_create_accounts factory w))) =
    mkResponse 200
      (Json (JArr (map serialize
                     (rows (store w) ++ numbered (next_id (store w)) factory))))
      [].
Proof.
  intros Hv.
  assert (H : fst (_create_accounts factory w) =
                Some (numbered (next_id (store w)) factory) /\
              rows (store (snd (_create_accounts factory w))) =
                (rows (store w) ++ numbered (next_id (store w)) factory)%list /\
              next_id (store (snd (_create_accounts factory w))) =
                next_id (store w) + Z.of_nat (List.length factory)).
  { revert w. induction factory as [ | a rest IH]; intros w.
    - cbn. rewrite app_nil_r. repeat split. lia.
    - cbn [forallb] in Hv. apply andb_true_iff in Hv. destruct Hv as [Ha Hrest].
      cbn [_create_accounts]. rewrite (post_account_created a w Ha).
      cbn [status_code]. change (201 =? status.HTTP_201_CREATED) with true.
      cbv iota. rewrite response_id_serialized. cbn [set_id id].
      match goal with
      | |- context [_create_accounts rest ?w1] =>
          specialize (IH Hrest w1); destruct (_create_accounts rest w1) as [res w2]
      end.
      cbn [fst snd store rows next_id] in *.
      destruct IH as (-> & -> & ->). cbn [option_map numbered List.length].
      repeat split.
      + now rewrite <- app_assoc.
      + lia. }
  destruct H as (H1 & H2 & H3). repeat split; try assumption.
  rewrite serve_list_accounts. cbn [fst]. now rewrite H2.
Qed.

Lemma create_accounts_in_bulk_witness :
  fst (_create_accounts [sample_account; updated_account] one_account_world) =
    Some [set_id (Some 2) sample_account; set_id (Some 3) updated_account] /\
  rows (store (snd (_create_accounts [sample_account; updated_account]
                                     one_account_world))) =
    [sample_account; set_id (Some 2) sample_account;
     set_id (Some 3) updated_account] /\
  next_id (store (snd (_create_accounts [sample_account; updated_account]
                                        one_account_world))) = 4 /\
  fst (serve GET_accounts charset_request
         (snd (_create_accounts [sample_account; updated_account]
                                one_account_world))) =
    mkResponse 200
      (Json (JArr (map serialize
                     [sample_account; set_id (Some 2) sample_account;
                      set_id (Some 3) updated_account])))
      [].
Proof.
  exact (create_accounts_in_bulk [sample_account; updated_account]
           charset_request one_account_world eq_refl).
Defined.

(** ** Keys are handed out once *)

Lemma serve_next_id_le (r : route) (req : request) (w : world) :
  next_id (store w) <= next_id (store (snd (serve r req w))).
Proof.
  destruct r as [ | | | | j | j | j].
  - apply Z.le_refl.
  - apply Z.le_refl.
  - rewrite serve_create_accounts.
    destruct (content_type_matches _ _); [ | apply Z.le_refl].
    destruct (json_payload req) as [data | code description]; [ | apply Z.le_refl].
    destruct (deserialize _ _ data); [ | apply Z.le_refl].
    cbn [snd store next_id]. lia.
  - rewrite serve_list_accounts. apply Z.le_refl.
  - rewrite serve_get_account. apply Z.le_refl.
  - rewrite serve_update_account.
    destruct (json_payload req) as [data | code description]; [ | apply Z.le_refl].
    cbn zeta. destruct (find _ _) as [a0 | ]; [ | apply Z.le_refl].
    destruct (deserialize _ a0 data); apply Z.le_refl.
  - rewrite serve_delete_account. cbn [snd].
    destruct (find _ _); apply Z.le_refl.
Qed.

Lemma serve_all_next_id_le (requests : list (route * request)) (w : world) :
  next_id (store w) <= next_id (store (snd (serve_all requests w))).
Proof.
  revert w. induction requests as [ | [r req] rest IH]; intros w.
  - apply Z.le_refl.
  - cbn [serve_all].
    pose proof (serve_next_id_le r req w) as Hstep.
    destruct (serve r req w) as [first w1]. cbn [snd] in Hstep.
    specialize (IH w1). destruct (serve_all rest w1) as [others w2].
    cbn [snd] in *. lia.
Qed.

(** The id in the body of a POST response is the one the store assigned:
    the value of the id sequence when the request came in. *)
Lemma create_accounts_assigned_id (req : request) (w : world) (k : Z) :
  response_id (fst (serve POST_accounts req w)) = Some (Some k) ->
  k = next_id (store w).
Proof.
  rewrite serve_create_accounts.
  destruct (content_type_matches _ _); [ | discriminate].
  destruct (json_payload req) as [data | code description]; [ | discriminate].
  destruct (deserialize _ _ data) as [a | e]; [ | discriminate].
  cbn [fst]. rewrite response_id_serialized. cbn [created_row id].
  now intros [= ->].
Qed.

(** X17: ids are not handed out again.  From a well-keyed table, whatever
    requests are served in between (deletes of the row included), the id
    that a later POST puts in the body of its response is not the id of
    any account stored now. *)
Theorem ids_not_reused
    (requests : list (route * request)) (req : request) (w : world)
    (a : Account) (k : Z) :
  store_ok (store w) = true ->
  In a (rows (store w)) ->
  response_id (fst (serve POST_accounts req (snd (serve_all requests w))))
    = Some (Some k) ->
  id a <> Some k.
Proof.
  intros Hkeys Ha Hk.
  apply create_accounts_assigned_id in Hk.
  pose proof (serve_all_next_id_le requests w) as Hle.
  unfold store_ok in Hkeys. rewrite !andb_true_iff in Hkeys.
  destruct Hkeys as [[_ Hbelow] _].
  rewrite forallb_forall in Hbelow. specialize (Hbelow a Ha).
  unfold id_below in Hbelow. destruct (id a) as [i | ]; [ | discriminate].
  apply andb_true_iff in Hbelow. destruct Hbelow as [_ Hi].
  apply Z.ltb_lt in Hi. intros [= ->]. lia.
Qed.

Lemma ids_not_reused_witness :
  rows (store (snd (serve_all [(DELETE_account 1, bad_json_request);
                               (GET_account 1, bad_json_request)]
                              one_account_world))) = [] /\
  response_id
    (fst (serve POST_accounts json_update_request
            (snd (serve_all [(DELETE_account 1, bad_json_request);
                             (GET_account 1, bad_json_request)]
                            one_account_world)))) = Some (Some 2) /\
  id sample_account <> Some 2.
Proof.
  split; [reflexivity | ]. split; [reflexivity | ].
  apply (ids_not_reused [(DELETE_account 1, bad_json_request);
                         (GET_account 1, bad_json_request)]
           json_update_request one_account_world sample_account 2).
  - reflexivity.
  - now left.
  - reflexivity.
Defined.

(** ** Status codes *)

(** X18: the statuses each route can answer with.  The read routes answer
    200 (a single account also 404), DELETE only ever 204, POST 201, 400
    or 415 and PUT 200, 400 or 404; any other status of POST or PUT is the
    one [request.get_json()] left with. *)
Theorem status_codes (r : route) (req : request) (w : world) :
  let code := status_code (fst (serve r req w)) in
  match r with
  | GET_health | GET_index | GET_accounts => code = 200
  | GET_account _ => code = 200 \/ code = 404
  | DELETE_account _ => code = 204
  | POST_accounts =>
      code = 201 \/ code = 400 \/ code = 415 \/
      exists description, json_payload req = NotLoaded code description
  | PUT_account _ =>
      code = 200 \/ code = 400 \/ code = 404 \/
      exists description, json_payload req = NotLoaded code description
  end.
Proof.
  cbv zeta. destruct r as [ | | | | i | i | i].
  - reflexivity.
  - reflexivity.
  - rewrite serve_create_accounts.
    destruct (content_type_matches _ _); [ | now right; right; left].
    destruct (json_payload req) as [data | code description].
    + destruct (deserialize _ _ data); [now left | now right; left].
    + right; right; right. now exists description.
  - now rewrite serve_list_accounts.
  - rewrite serve_get_account. cbn [fst].
    destruct (find _ _); [now left | now right].
  - rewrite serve_update_account.
    destruct (json_payload req) as [data | code description].
    + cbn zeta. destruct (find _ _) as [a | ]; [ | now right; right; left].
      destruct (deserialize _ a data); [now left | now right; left].
    + right; right; right. now exists description.
  - now rewrite serve_delete_account.
Qed.
